(** * admin_change_color.py: a shallow embedding and its properties

    The script parses two optional command-line options, resolves a color
    (explicit or random) and a web-app URL (explicit or read from
    [secrets.json]), draws a nonce, issues one GET request and prints a
    report.  The script's effects (random draws, file access, the network
    call, standard output, its module-level variables) are threaded through
    an explicit world in a state-and-exception monad. *)

From Stdlib Require Import ZArith NArith Ascii String List Lia.
From stdpp Require Import base option list list_numbers gmap strings.

Local Open Scope Z_scope.

(** ** Text: Python's [str] and [int] on integers *)

Module Text.

(** The decimal digit with value [d] (for [d < 10]). *)
Definition digit_char (d : N) : ascii := ascii_of_N (48 + d).

(** Most significant digit first; [fuel] bounds the number of digits. *)
Fixpoint str_digits (fuel : nat) (n : N) (acc : string) : string :=
  match fuel with
  | O => acc
  | S fuel' =>
      let acc' := String (digit_char (n mod 10)) acc in
      if (n / 10 =? 0)%N then acc' else str_digits fuel' (n / 10)%N acc'
  end.

(** A number has no more decimal digits than binary ones. *)
Definition str_N (n : N) : string :=
  str_digits (S (N.to_nat (N.log2 n))) n "".

(** [str(z)] for a Python int. *)
Definition str (z : Z) : string :=
  match z with
  | Z0 => "0"
  | Zpos p => str_N (Npos p)
  | Zneg p => "-" +:+ str_N (Npos p)
  end.

(** Whitespace as [int] skips it in an ASCII string: tab, LF, VT, FF, CR and
    the space.  Strings are taken as ASCII text; on any other character
    [int] fails here. *)
Definition is_space (c : ascii) : bool :=
  let k := N_of_ascii c in
  ((9 <=? k) && (k <=? 13) || (k =? 32))%N.

Definition is_digit (c : ascii) : bool :=
  let k := N_of_ascii c in ((48 <=? k) && (k <=? 57))%N.

Definition digit_val (c : ascii) : N := (N_of_ascii c - 48)%N.

Fixpoint lstrip (s : string) : string :=
  match s with
  | String c s' => if is_space c then lstrip s' else s
  | EmptyString => EmptyString
  end.

(** [rstrip] keeps a character when it is not a space or when something
    that is kept follows it. *)
Fixpoint rstrip (s : string) : string :=
  match s with
  | String c s' =>
      match rstrip s' with
      | EmptyString => if is_space c then EmptyString else String c EmptyString
      | t => String c t
      end
  | EmptyString => EmptyString
  end.

Definition strip (s : string) : string := rstrip (lstrip s).

(** Digits, with single underscores allowed between two digits;
    [after_digit] tells whether the previous character was a digit. *)
Fixpoint int_digits (s : string) (acc : N) (after_digit : bool) : option N :=
  match s with
  | EmptyString => if after_digit then Some acc else None
  | String c s' =>
      if is_digit c then int_digits s' (10 * acc + digit_val c)%N true
      else if Ascii.eqb c "_"%char then
        if after_digit then int_digits s' acc false else None
      else None
  end.

(** [int(s)] for a string in base 10: surrounding whitespace, an optional
    sign, then the digits.  [None] stands for [ValueError]. *)
Definition int (s : string) : option Z :=
  match strip s with
  | String "+"%char t => Z.of_N <$> int_digits t 0%N false
  | String "-"%char t => (λ n, - Z.of_N n) <$> int_digits t 0%N false
  | t => Z.of_N <$> int_digits t 0%N false
  end.

End Text.

(** ** The environment of a run *)

(** A value stored in a decoded JSON object: a string, or anything else
    (number, boolean, null, list, nested object), kept as the text Python's
    [str] gives for it, since the script does nothing with it but format it. *)
Inductive value :=
  | VStr (s : string)
  | VOther (shown : string).

(** What [json.load] returns: a dict, or a document of another type. *)
Inductive json :=
  | JDict (d : gmap string value)
  | JOther.

Inductive exn :=
  | UsageError (bad : string)   (* parser.error: usage on stderr, exit 2 *)
  | ValueError
  | FileNotFoundError
  | OSError
  | JSONDecodeError
  | UnicodeDecodeError
  | RecursionError
  | KeyError (key : string)
  | TypeError
  | RequestException.

Inductive result (A : Type) :=
  | Ok (a : A)
  | Raised (e : exn).
Arguments Ok {A} a.
Arguments Raised {A} e.

(** A file of the working directory.  A file that can be opened is described
    by what [json.load] does with it: it returns a document, it finds no
    JSON ([Readable None], [JSONDecodeError]), or it raises something else
    while reading or decoding ([LoadRaises]: [UnicodeDecodeError] on bytes
    that are no text, [ValueError] on an integer with too many digits,
    [RecursionError] on deep nesting, ...). *)
Inductive file :=
  | Unreadable
  | Readable (decoded : option json)
  | LoadRaises (e : exn).

(** What the network answers to a GET: no answer (or a URL that [requests]
    refuses), or a response; its status and body are never looked at. *)
Inductive reply :=
  | Unreachable
  | Response (status_code : Z) (body : string).

(** The module [random], reduced to the call the script makes: [draw a b r]
    is the outcome of [randint(a, b)] in the generator state [r] with the next
    state; for [a <= b] the outcome lies in [a..b]. *)
Class RandomSource (R : Type) := {
  draw : Z → Z → R → Z * R;
  draw_range : ∀ a b r, a ≤ b → a ≤ (draw a b r).1 ≤ b
}.

(** A scripted source for concrete runs: a queue of raw numbers, each folded
    into the requested range. *)
Definition scripted_draw (a b : Z) (r : list Z) : Z * list Z :=
  match r with
  | [] => (a, [])
  | x :: r' => (a + x `mod` (b - a + 1), r')
  end.

#[export] Program Instance scripted : RandomSource (list Z) :=
  {| draw := scripted_draw |}.
Next Obligation.
  intros a b [|x r] Hab; simpl; [lia|].
  pose proof (Z.mod_pos_bound x (b - a + 1)); lia.
Qed.

(** The option values as they stand on the command line, and as
    [parse_args] hands them over. *)
Record command_line := CommandLine {
  given_color : option string;
  given_url : option string
}.

Record namespace := Namespace {
  args_color : option string;
  args_url : option string
}.

(** The script's module-level variables; [None] is a name not yet bound. *)
Record globals := Globals {
  color : option Z;
  url : option value;
  rng : option Z;
  url_query : option string;
  req : option reply
}.

Definition no_globals : globals := Globals None None None None None.

(** The exit status of the interpreter. *)
Definition exit_status {A} (r : result A) : Z :=
  match r with
  | Ok _ => 0
  | Raised (UsageError _) => 2
  | Raised _ => 1
  end.

(** Constants *)
Definition N_COLOR : Z := 10.
Definition MAC : string := "02:01:20:22:ADMIN".

(** [choices=[str(num) for num in range(N_COLOR)]] *)
Definition choices : list string := Text.str <$> seqZ 0 N_COLOR.

(** How an f-string renders the URL. *)
Definition format (v : value) : string :=
  match v with
  | VStr s => s
  | VOther shown => shown
  end.

Definition newline : string := String "010"%char EmptyString.

Section Script.
Context {R : Type} `{RandomSource R}.

(** The world: the generator, the files and the network the script runs
    against, what it has done so far, and its variables. *)
Record world := World {
  random : R;
  files : gmap string file;
  net : string → reply;
  opened : list string;   (* paths given to open, in order *)
  sent : list string;     (* URLs given to requests.get, in order *)
  stdout : string;
  vars : globals
}.

Definition set_random (r : R) (w : world) : world :=
  World r (files w) (net w) (opened w) (sent w) (stdout w) (vars w).
Definition log_opened (p : string) (w : world) : world :=
  World (random w) (files w) (net w) (opened w ++ [p]) (sent w) (stdout w) (vars w).
Definition log_sent (u : string) (w : world) : world :=
  World (random w) (files w) (net w) (opened w) (sent w ++ [u]) (stdout w) (vars w).
Definition write_stdout (s : string) (w : world) : world :=
  World (random w) (files w) (net w) (opened w) (sent w) (stdout w +:+ s) (vars w).
Definition set_vars (g : globals) (w : world) : world :=
  World (random w) (files w) (net w) (opened w) (sent w) (stdout w) g.

(** A fresh process: nothing done, no variable bound. *)
Definition start (r : R) (fs : gmap string file) (n : string → reply) : world :=
  World r fs n [] [] "" no_globals.

(** *** The monad of the script: state, with exceptions that keep the state *)

Definition M (A : Type) : Type := world → result A * world.

#[local] Instance M_ret : MRet M := λ A a w, (Ok a, w).
#[local] Instance M_bind : MBind M := λ A B f m w,
  match m w with
  | (Ok a, w') => f a w'
  | (Raised e, w') => (Raised e, w')
  end.

Definition raise {A} (e : exn) : M A := λ w, (Raised e, w).

(** [random.randint(a, b)] *)
Definition randint (a b : Z) : M Z := λ w,
  if b <? a then (Raised ValueError, w)
  else let '(n, r) := draw a b (random w) in (Ok n, set_random r w).

(** [open(path, "r")]: the file object is what [json.load] will make of
    it. *)
Definition open (path : string) : M (result json) := λ w,
  let w' := log_opened path w in
  match files w !! path with
  | None => (Raised FileNotFoundError, w')
  | Some Unreadable => (Raised OSError, w')
  | Some (Readable (Some j)) => (Ok (Ok j), w')
  | Some (Readable None) => (Ok (Raised JSONDecodeError), w')
  | Some (LoadRaises e) => (Ok (Raised e), w')
  end.

(** [json.load(file)] *)
Definition json_load (f : result json) : M json :=
  match f with
  | Ok j => mret j
  | Raised e => raise e
  end.

(** [json_object[key]] *)
Definition getitem (j : json) (key : string) : M value :=
  match j with
  | JDict d =>
      match d !! key with
      | Some v => mret v
      | None => raise (KeyError key)
      end
  | JOther => raise TypeError
  end.

(** [int(s)] *)
Definition int (s : string) : M Z :=
  match Text.int s with
  | Some z => mret z
  | None => raise ValueError
  end.

(** [requests.get(u)] *)
Definition requests_get (u : string) : M reply := λ w,
  let w' := log_sent u w in
  match net w u with
  | Unreachable => (Raised RequestException, w')
  | Response c b => (Ok (Response c b), w')
  end.

(** [print(s)] *)
Definition print (s : string) : M unit := λ w,
  (Ok (), write_stdout (s +:+ newline) w).

(** Assignments to the module-level variables. *)
Definition assign (f : globals → globals) : M unit := λ w,
  (Ok (), set_vars (f (vars w)) w).
Definition bind_color (c : Z) (g : globals) : globals :=
  Globals (Some c) (url g) (rng g) (url_query g) (req g).
Definition bind_url (u : value) (g : globals) : globals :=
  Globals (color g) (Some u) (rng g) (url_query g) (req g).
Definition bind_rng (n : Z) (g : globals) : globals :=
  Globals (color g) (url g) (Some n) (url_query g) (req g).
Definition bind_url_query (q : string) (g : globals) : globals :=
  Globals (color g) (url g) (rng g) (Some q) (req g).
Definition bind_req (r : reply) (g : globals) : globals :=
  Globals (color g) (url g) (rng g) (url_query g) (Some r).

(** [parser.parse_args()] with the two options of the script: a color that
    is given must be one of [choices]; the URL is any string.  The command
    line is taken as argparse has split it into the values of [--color] and
    [--url]; its handling of [-h], of unknown options and of an option
    without its value happens before and is not part of this model. *)
Definition parse_args (argv : command_line) : M namespace :=
  match given_color argv with
  | Some s =>
      if bool_decide (s ∈ choices) then
        mret (Namespace (Some s) (given_url argv))
      else raise (UsageError s)
  | None => mret (Namespace None (given_url argv))
  end.

(** The f-strings of the script. *)
Definition query_string (u : value) (c n : Z) : string :=
  format u +:+ "?fc=" +:+ Text.str c +:+ "." +:+ Text.str n +:+ "." +:+ MAC.

Definition report_line (c : Z) (q : string) : string :=
  "Admin changed color to " +:+ Text.str c +:+ " using request " +:+ q.

(** The script, top to bottom. *)
Definition main (argv : command_line) : M unit :=
  args ← parse_args argv;
  (* Parse color *)
  c ← match args_color args with
      | None => randint 0 (N_COLOR - 1)
      | Some s => int s
      end;
  assign (bind_color c);;
  (* Parse webapp URL *)
  u ← match args_url args with
      | None =>
          f ← open "secrets.json";
          json_object ← json_load f;
          getitem json_object "webapp_url"
      | Some s => mret (VStr s)
      end;
  assign (bind_url u);;
  (* Make request *)
  n ← randint 1000 9999;
  assign (bind_rng n);;
  let q := query_string u c n in
  assign (bind_url_query q);;
  r ← requests_get q;
  assign (bind_req r);;
  (* Report result *)
  print (report_line c q).

(** A run of the script as a fresh process, its result and its final world. *)
Definition outcome (argv : command_line) (r : R) (fs : gmap string file)
    (nt : string → reply) : result unit :=
  (main argv (start r fs nt)).1.

Definition final (argv : command_line) (r : R) (fs : gmap string file)
    (nt : string → reply) : world :=
  (main argv (start r fs nt)).2.

(** The command line gets through [parse_args]. *)
Definition accepted (argv : command_line) (r : R) (fs : gmap string file)
    (nt : string → reply) : Prop :=
  ∃ args, (parse_args argv (start r fs nt)).1 = Ok args.

End Script.

(** ** Vocabulary of the statements *)

Fixpoint all_chars (p : ascii → bool) (s : string) : bool :=
  match s with
  | EmptyString => true
  | String c s' => p c && all_chars p s'
  end.






(** A finite sample [xs] takes its values in [vals] and takes each of them
    equally often. *)
Definition uniform_on (vals xs : list Z) : Prop :=
  Forall (λ x, x ∈ vals) xs ∧
  Forall (λ v1, Forall (λ v2,
    count_occ Z.eq_dec xs v1 = count_occ Z.eq_dec xs v2) vals) vals.

(** [secrets.json] gives no [webapp_url]: it is missing, unreadable, no JSON
    or otherwise not loadable, no JSON object, or an object without the
    key. *)
Definition no_webapp_url (f : option file) : Prop :=
  match f with
  | None => True
  | Some Unreadable => True
  | Some (Readable None) => True
  | Some (LoadRaises _) => True
  | Some (Readable (Some JOther)) => True
  | Some (Readable (Some (JDict d))) => d !! "webapp_url" = None
  end.

Definition is_dot (c : ascii) : bool := Ascii.eqb c "."%char.

(** The base URL can be had: [--url] is given, or [secrets.json] loads as an
    object with the key [webapp_url]. *)
Definition url_available (argv : command_line) (fs : gmap string file) : Prop :=
  match given_url argv with
  | Some _ => True
  | None => ∃ d v, fs !! "secrets.json" = Some (Readable (Some (JDict d))) ∧
                   d !! "webapp_url" = Some v
  end.

(** ** Concrete inputs

    The concrete runs use the scripted generator, an empty working directory
    or one that holds [secrets.json], and a network that answers every GET. *)

Definition answer_all (status : Z) (body : string) : string → reply :=
  λ _, Response status body.

(** A network on which every GET fails. *)
Definition no_network : string → reply := λ _, Unreachable.

Definition secrets_foo : gmap string file :=
  {[ "secrets.json" :=
       Readable (Some (JDict {[ "webapp_url" := VStr "https://foo" ]})) ]}.

Definition example_argv : command_line :=
  CommandLine (Some "3") (Some "https://example.com/x").


(** The digit 3 after the control character FS (byte 28). *)
Definition fs_three : string := String "028"%char "3".

Definition digit_strings : list string :=
  ["0"; "1"; "2"; "3"; "4"; "5"; "6"; "7"; "8"; "9"].

(** * Facts *)

Example str_examples :
  Text.str 0 = "0" ∧ Text.str 7 = "7" ∧ Text.str 1000 = "1000" ∧
  Text.str 9999 = "9999" ∧ Text.str (-12) = "-12" ∧ Text.str 1024 = "1024".
Proof. repeat split; reflexivity. Qed.

Example int_examples :
  Text.int "3" = Some 3 ∧ Text.int "03" = Some 3 ∧ Text.int "+3" = Some 3 ∧
  Text.int " 3" = Some 3 ∧ Text.int "10" = Some 10 ∧ Text.int "-1" = Some (-1) ∧
  Text.int "1_0" = Some 10 ∧ Text.int "" = None ∧ Text.int "3 4" = None ∧
  Text.int "_3" = None ∧ Text.int "3_" = None ∧ Text.int "three" = None ∧
  Text.int "3 " = Some 3 ∧ Text.int "+ 3" = None.
Proof. repeat split; reflexivity. Qed.


(** ** Text: [int] reads back [str] *)

Module TextFacts.
Import Text.


Lemma all_chars_impl (p q : ascii → bool) s :
  (∀ c, p c = true → q c = true) → all_chars p s = true → all_chars q s = true.
Proof.
  intros Hpq. induction s as [|c s IH]; simpl; [done|].
  intros [Hc Hs]%andb_true_iff. by rewrite (Hpq _ Hc), IH.
Qed.

Lemma digit_char_is_digit d : (d < 10)%N → is_digit (digit_char d) = true.
Proof.
  intros Hd. assert (Hc : d ∈ (N.of_nat <$> seq 0 10)).
  { apply list_elem_of_fmap. exists (N.to_nat d). split; [lia|].
    apply elem_of_seq. lia. }
  vm_compute in Hc. repeat (apply elem_of_cons in Hc as [->|Hc]; [reflexivity|]).
  by apply elem_of_nil in Hc.
Qed.

Lemma digit_char_val d : (d < 10)%N → digit_val (digit_char d) = d.
Proof.
  intros Hd. assert (Hc : d ∈ (N.of_nat <$> seq 0 10)).
  { apply list_elem_of_fmap. exists (N.to_nat d). split; [lia|].
    apply elem_of_seq. lia. }
  vm_compute in Hc. repeat (apply elem_of_cons in Hc as [->|Hc]; [reflexivity|]).
  by apply elem_of_nil in Hc.
Qed.

Lemma str_digits_all_digits fuel n acc :
  all_chars is_digit acc = true → all_chars is_digit (str_digits fuel n acc) = true.
Proof.
  revert n acc. induction fuel as [|fuel IH]; intros n acc Hacc; simpl; [done|].
  assert (Hd : all_chars is_digit (String (digit_char (n `mod` 10)) acc) = true).
  { simpl. rewrite digit_char_is_digit, Hacc; [done|]. apply N.mod_lt. lia. }
  destruct (n / 10 =? 0)%N; [done|]. by apply IH.
Qed.

Lemma str_N_all_digits n : all_chars is_digit (str_N n) = true.
Proof. by apply str_digits_all_digits. Qed.

Lemma int_digits_digit d t a b :
  (d < 10)%N →
  int_digits (String (digit_char d) t) a b = int_digits t (10 * a + d)%N true.
Proof.
  intros Hd. simpl. by rewrite digit_char_is_digit, digit_char_val.
Qed.

(** Reading back what [str_digits] wrote: the digits of [n] are shifted into
    the accumulator of [int_digits]. *)
Lemma int_str_digits fuel n t :
  (n < 10 ^ N.of_nat (S fuel))%N →
  ∃ k, ∀ a b,
    int_digits (str_digits (S fuel) n t) a b
    = int_digits t (a * 10 ^ k + n)%N true.
Proof.
  revert n t. induction fuel as [|fuel IH]; intros n t Hn.
  - exists 1%N. intros a b.
    assert (Hlt : (n < 10)%N) by (simpl in Hn; lia).
    cbn [str_digits]. rewrite (N.mod_small n 10) by done.
    destruct (n / 10 =? 0)%N; rewrite int_digits_digit by done; f_equal; lia.
  - change (str_digits (S (S fuel)) n t) with
      (if (n / 10 =? 0)%N then String (digit_char (n `mod` 10)) t
       else str_digits (S fuel) (n / 10) (String (digit_char (n `mod` 10)) t)).
    pose proof (N.mod_lt n 10 ltac:(lia)) as Hmod.
    pose proof (N.div_mod n 10 ltac:(lia)) as Hdm.
    destruct (n / 10 =? 0)%N eqn:Hq.
    + exists 1%N. intros a b. rewrite int_digits_digit by done.
      apply N.eqb_eq in Hq. f_equal. lia.
    + destruct (IH (n / 10)%N (String (digit_char (n `mod` 10)) t)) as [k Hk].
      { apply N.Div0.div_lt_upper_bound.
        replace (N.of_nat (S (S fuel))) with (N.succ (N.of_nat (S fuel))) in Hn by lia.
        by rewrite N.pow_succ_r' in Hn. }
      exists (N.succ k). intros a b.
      rewrite Hk, int_digits_digit by done. f_equal.
      rewrite N.pow_succ_r'. lia.
Qed.

Lemma enough_fuel n : (n < 10 ^ N.of_nat (S (N.to_nat (N.log2 n))))%N.
Proof.
  destruct n as [|p]; [done|].
  replace (N.of_nat (S (N.to_nat (N.log2 (N.pos p)))))
    with (N.succ (N.log2 (N.pos p))) by lia.
  eapply N.lt_le_trans; [apply N.log2_spec; lia|].
  apply N.pow_le_mono_l. lia.
Qed.

Lemma int_digits_str_N n : int_digits (str_N n) 0 false = Some n.
Proof.
  unfold str_N. destruct (int_str_digits _ n EmptyString (enough_fuel n)) as [k Hk].
  by rewrite Hk.
Qed.

Lemma lstrip_id c s : is_space c = false → lstrip (String c s) = String c s.
Proof. intros Hc. simpl. by rewrite Hc. Qed.

Lemma rstrip_id s : all_chars (λ c, negb (is_space c)) s = true → rstrip s = s.
Proof.
  induction s as [|c s IH]; simpl; [done|].
  intros [Hc Hs]%andb_true_iff. rewrite (IH Hs).
  apply negb_true_iff in Hc. rewrite Hc. by destruct s.
Qed.

Lemma digit_not_space c : is_digit c = true → negb (is_space c) = true.
Proof.
  unfold is_digit, is_space. intros H. apply negb_true_iff.
  destruct (N_of_ascii c) as [|p]; [done|].
  apply andb_true_iff in H as [H1 H2].
  apply N.leb_le in H1, H2.
  apply orb_false_iff; split.
  - apply andb_false_iff. right. apply N.leb_gt. lia.
  - apply N.eqb_neq. lia.
Qed.

Lemma str_N_cons n : ∃ c t, str_N n = String c t ∧ is_digit c = true.
Proof.
  pose proof (str_N_all_digits n) as Hd.
  destruct (str_N n) as [|c t] eqn:E.
  - pose proof (int_digits_str_N n) as Hi. by rewrite E in Hi.
  - exists c, t. split; [done|]. simpl in Hd. by apply andb_true_iff in Hd as [? _].
Qed.

Lemma strip_str_N n : strip (str_N n) = str_N n.
Proof.
  destruct (str_N_cons n) as (c & t & E & Hc). unfold strip.
  rewrite E, lstrip_id, <- E.
  - apply rstrip_id. eapply all_chars_impl, str_N_all_digits. apply digit_not_space.
  - apply negb_true_iff. by apply digit_not_space.
Qed.

(** [int] reads back what [str] writes. *)
Lemma int_str z : int (str z) = Some z.
Proof.
  unfold int. destruct z as [|p|p]; [done|..]; simpl str.
  - rewrite strip_str_N. destruct (str_N_cons (N.pos p)) as (c & t & E & Hc).
    pose proof (int_digits_str_N (N.pos p)) as Hi. rewrite E in *.
    destruct c as [[] [] [] [] [] [] [] []]; try discriminate Hc.
    all: cbv beta iota; rewrite Hi; reflexivity.
  - change ("-" +:+ str_N (N.pos p)) with (String "-"%char (str_N (N.pos p))).
    assert (strip (String "-"%char (str_N (N.pos p)))
            = String "-"%char (str_N (N.pos p))) as ->.
    { unfold strip. rewrite lstrip_id by done. apply rstrip_id.
      change (all_chars (λ c, negb (is_space c)) (str_N (N.pos p)) = true).
      eapply all_chars_impl, str_N_all_digits. apply digit_not_space. }
    by rewrite int_digits_str_N.
Qed.
End TextFacts.

(** ** The choices of [--color], and lines of text *)

Lemma choices_digit_strings : choices = digit_strings.
Proof. reflexivity. Qed.

Lemma elem_of_choices s :
  s ∈ choices ↔ ∃ k, 0 ≤ k ≤ 9 ∧ s = Text.str k.
Proof.
  unfold choices. rewrite list_elem_of_fmap. split.
  - intros (k & -> & Hk). exists k. split; [|done].
    apply elem_of_seqZ in Hk. unfold N_COLOR in Hk. lia.
  - intros (k & Hk & ->). exists k. split; [done|].
    apply elem_of_seqZ. unfold N_COLOR. lia.
Qed.

Lemma choices_int s :
  s ∈ choices → ∃ k, 0 ≤ k ≤ 9 ∧ s = Text.str k ∧ Text.int s = Some k.
Proof.
  intros (k & Hk & ->)%elem_of_choices. exists k.
  by rewrite TextFacts.int_str.
Qed.








(** ** More on the text of a request *)

Lemma str_no_dot z : all_chars (λ c, negb (is_dot c)) (Text.str z) = true.
Proof.
  assert (Hd : ∀ n, all_chars (λ c, negb (is_dot c)) (Text.str_N n) = true).
  { intros n. eapply TextFacts.all_chars_impl, TextFacts.str_N_all_digits.
    intros c. unfold Text.is_digit, is_dot.
    destruct (Ascii.eqb_spec c "."%char) as [->|]; done. }
  destruct z as [|p|p]; [done|apply Hd|].
  change (Text.str (Z.neg p)) with (String "-"%char (Text.str_N (N.pos p))).
  simpl. apply Hd.
Qed.

Lemma str_inj a b : Text.str a = Text.str b → a = b.
Proof.
  intros Heq. pose proof (TextFacts.int_str a) as Ha.
  rewrite Heq, TextFacts.int_str in Ha. congruence.
Qed.

(** Two texts without a dot, each followed by a dot: where the first dot
    stands is determined. *)
Lemma split_at_dot s s' t t' :
  all_chars (λ c, negb (is_dot c)) s = true →
  all_chars (λ c, negb (is_dot c)) s' = true →
  s +:+ "." +:+ t = s' +:+ "." +:+ t' → s = s' ∧ t = t'.
Proof.
  revert s'. induction s as [|c s IH]; intros [|c' s'] Hs Hs' Heq.
  - by injection Heq.
  - injection Heq as <- _. simpl in Hs'. done.
  - injection Heq as -> _. simpl in Hs. done.
  - injection Heq as -> Heq. simpl in Hs, Hs'.
    apply andb_true_iff in Hs as [_ Hs]. apply andb_true_iff in Hs' as [_ Hs'].
    destruct (IH s' Hs Hs' Heq) as [-> ->]. done.
Qed.

Lemma query_string_inj u c n c' n' :
  query_string u c n = query_string u c' n' → c = c' ∧ n = n'.
Proof.
  unfold query_string. intros Heq.
  apply (inj (String.app (format u))), (inj (String.app "?fc=")) in Heq.
  apply split_at_dot in Heq as [Hc Heq]; [|apply str_no_dot..].
  apply split_at_dot in Heq as [Hn _]; [|apply str_no_dot..].
  split; by apply str_inj.
Qed.

Lemma length_append s t :
  String.length (s +:+ t) = (String.length s + String.length t)%nat.
Proof.
  induction s as [|c s IH]; [done|].
  change (S (String.length (s +:+ t)) = S (String.length s + String.length t)).
  by rewrite IH.
Qed.

Lemma str_digits_step fuel n acc :
  Text.str_digits (S fuel) n acc
  = if (n / 10 =? 0)%N then String (Text.digit_char (n `mod` 10)) acc
    else Text.str_digits fuel (n / 10) (String (Text.digit_char (n `mod` 10)) acc).
Proof. reflexivity. Qed.

Lemma length_str_one_digit c : 0 ≤ c ≤ 9 → String.length (Text.str c) = 1%nat.
Proof.
  intros Hc. assert (Hin : c ∈ seqZ 0 10) by (apply elem_of_seqZ; lia).
  vm_compute in Hin.
  repeat (apply elem_of_cons in Hin as [->|Hin]; [reflexivity|]).
  by apply elem_of_nil in Hin.
Qed.

Lemma length_str_four_digits n :
  1000 ≤ n ≤ 9999 → String.length (Text.str n) = 4%nat.
Proof.
  intros Hn. destruct n as [|p|p]; [lia| |lia].
  change (Text.str (Z.pos p)) with (Text.str_N (N.pos p)).
  set (m := N.pos p). assert (Hm : (1000 ≤ m ≤ 9999)%N) by lia. clearbody m.
  unfold Text.str_N.
  assert (Hlog : (9 ≤ N.log2 m)%N).
  { change 9%N with (N.log2 512). apply N.log2_le_mono. lia. }
  destruct (N.to_nat (N.log2 m)) as [|[|[|f]]] eqn:Hf; [lia..|].
  assert (H1 : (m / 10 =? 0)%N = false).
  { apply N.eqb_neq. intros H0. pose proof (N.div_mod m 10 ltac:(lia)).
    pose proof (N.mod_lt m 10 ltac:(lia)). lia. }
  assert (Hq1 : (100 ≤ m / 10 ≤ 999)%N).
  { split; [apply N.div_le_lower_bound; lia|].
    apply N.lt_succ_r, N.Div0.div_lt_upper_bound. lia. }
  assert (H2 : (m / 10 / 10 =? 0)%N = false).
  { apply N.eqb_neq. intros H0. pose proof (N.div_mod (m / 10) 10 ltac:(lia)).
    pose proof (N.mod_lt (m / 10) 10 ltac:(lia)). lia. }
  assert (Hq2 : (10 ≤ m / 10 / 10 ≤ 99)%N).
  { split; [apply N.div_le_lower_bound; lia|].
    apply N.lt_succ_r, N.Div0.div_lt_upper_bound. lia. }
  assert (H3 : (m / 10 / 10 / 10 =? 0)%N = false).
  { apply N.eqb_neq. intros H0. pose proof (N.div_mod (m / 10 / 10) 10 ltac:(lia)).
    pose proof (N.mod_lt (m / 10 / 10) 10 ltac:(lia)). lia. }
  assert (H4 : (m / 10 / 10 / 10 / 10 =? 0)%N = true).
  { apply N.eqb_eq, N.div_small.
    apply N.Div0.div_lt_upper_bound. lia. }
  rewrite !str_digits_step, H1, H2, H3, H4. reflexivity.
Qed.

(** ** The script *)

Section ScriptFacts.
Context {R : Type} `{RandomSource R}.

(** Unfolds a run down to the case distinctions the script makes. *)
Ltac run :=
  unfold outcome, final, accepted, main, parse_args, int, randint, open,
    json_load, getitem, requests_get, print, assign, raise,
    mbind, M_bind, mret, M_ret; simpl.


(** [int] never fails on a string that got through the choices. *)
Ltac int_of_choice :=
  match goal with
  | Hc : bool_decide (?s ∈ choices) = true, Hi : Text.int ?s = None |- _ =>
      apply bool_decide_eq_true_1, choices_int in Hc as (? & _ & _ & ?);
      congruence
  end.

(** Every case distinction of a run, with the impossible cases closed. *)
Ltac cases :=
  repeat (case_match; simplify_eq/=); intros; simplify_eq/=;
  try int_of_choice.

Lemma parse_args_accepts argv (w : @world R) :
  (∀ s, given_color argv = Some s → s ∈ choices) →
  parse_args argv w = (Ok (Namespace (given_color argv) (given_url argv)), w).
Proof.
  intros Hc. unfold parse_args. destruct (given_color argv) as [s|]; [|done].
  by rewrite bool_decide_eq_true_2 by auto.
Qed.

Lemma parse_args_rejects argv (w : @world R) s :
  given_color argv = Some s → s ∉ choices →
  parse_args argv w = (Raised (UsageError s), w).
Proof.
  intros Hc Hs. unfold parse_args. rewrite Hc.
  by rewrite bool_decide_eq_false_2.
Qed.

Lemma rejected_run argv r fs nt s :
  given_color argv = Some s → s ∉ choices →
  main argv (start r fs nt) = (Raised (UsageError s), start r fs nt).
Proof.
  intros Hc Hs. unfold main, mbind, M_bind.
  by rewrite (parse_args_rejects _ _ s).
Qed.

(** C1: the URL handed to [requests.get] is the resolved base URL, then
    [?fc=], the color, a dot, the nonce, a dot and the device identifier;
    with [--url https://example.com/x --color 3] it is
    [https://example.com/x?fc=3.<n>.02:01:20:22:ADMIN] for the nonce drawn. *)
Theorem request_target argv r fs nt u c n :
  url (vars (final argv r fs nt)) = Some u →
  color (vars (final argv r fs nt)) = Some c →
  rng (vars (final argv r fs nt)) = Some n →
  sent (final argv r fs nt)
  = [format u +:+ "?fc=" +:+ Text.str c +:+ "." +:+ Text.str n +:+ "."
     +:+ "02:01:20:22:ADMIN"]
  ∧ ∀ r' fs' nt',
      sent (final (CommandLine (Some "3") (Some "https://example.com/x"))
                  r' fs' nt')
      = ["https://example.com/x?fc=3." +:+ Text.str (draw 1000 9999 r').1
         +:+ ".02:01:20:22:ADMIN"].
Proof.
  intros Hu Hc Hn. split.
  - revert Hu Hc Hn. destruct argv as [gc gu]. run. cases; done.
  - intros r' fs' nt'. run. cases; done.
Qed.

(** C2: a [--color] string that the parser accepts is the decimal numeral of
    an integer in 0..9, and that integer is the resolved color. *)
Theorem explicit_color s gu r fs nt :
  accepted (CommandLine (Some s) gu) r fs nt →
  ∃ k, 0 ≤ k ≤ 9 ∧ s = Text.str k ∧ Text.int s = Some k ∧
       color (vars (final (CommandLine (Some s) gu) r fs nt)) = Some k.
Proof.
  intros [args Hargs].
  assert (Hs : s ∈ choices).
  { revert Hargs. unfold parse_args. simpl. case_bool_decide; done. }
  destruct (choices_int s Hs) as (k & Hk & Hstr & Hint).
  exists k. repeat split; try done; try lia.
  run. rewrite bool_decide_eq_true_2 by done. simpl. rewrite Hint. simpl.
  cases; done.
Qed.

(** C3: whatever options are given, a run whose command line is accepted
    and whose base URL can be had draws the nonce: [rng] is bound to what
    [randint(1000, 9999)] yields in the generator state reached after the
    color was resolved, an integer of 1000..9999, and that number is in the
    one request sent.  No run binds [rng] to anything else, and [rng] is
    bound whenever the base URL is. *)
Theorem nonce_fresh argv r fs nt :
  let r1 := match given_color argv with
            | None => (draw 0 (N_COLOR - 1) r).2
            | Some _ => r
            end in
  let n := (draw 1000 9999 r1).1 in
  1000 ≤ n ≤ 9999 ∧
  (accepted argv r fs nt → url_available argv fs →
     rng (vars (final argv r fs nt)) = Some n ∧
     ∃ u c, sent (final argv r fs nt) = [query_string u c n]) ∧
  (∀ m, rng (vars (final argv r fs nt)) = Some m →
        m = n ∧ accepted argv r fs nt ∧ url_available argv fs) ∧
  (∀ u, url (vars (final argv r fs nt)) = Some u →
        rng (vars (final argv r fs nt)) = Some n) ∧
  (∀ q, q ∈ sent (final argv r fs nt) →
        ∃ u c, q = query_string u c n).
Proof.
  intros r1 n. split; [apply draw_range; lia|].
  subst n r1. destruct argv as [gc gu]. unfold url_available. run.
  split_and!.
  - intros [args Hargs] Hurl. revert Hargs Hurl.
    cases; try done; try (split; [done|eauto]).
    all: match goal with
         | Hu : ∃ d v, _ ∧ _ |- _ => destruct Hu as (? & ? & ? & ?)
         end; simplify_eq.
  - cases; try done; (split; [done|]); split; eauto.
  - cases; done.
  - cases; try done.
    all: repeat match goal with
         | Hq : _ ∈ [] |- _ => by apply elem_of_nil in Hq
         | Hq : _ ∈ [_] |- _ => apply list_elem_of_singleton in Hq as ->
         end; eauto.
Qed.

Lemma random_color gu r fs nt :
  color (vars (final (CommandLine None gu) r fs nt))
  = Some (draw 0 (N_COLOR - 1) r).1.
Proof. run. cases; done. Qed.

Lemma uniform_on_hits vals xs v :
  uniform_on vals xs → xs ≠ [] → v ∈ vals → v ∈ xs.
Proof.
  intros [Hin Heq] Hne Hv. destruct xs as [|x xs]; [done|].
  apply list_elem_of_In, (count_occ_In Z.eq_dec).
  rewrite Forall_forall in Heq.
  specialize (Heq v Hv). rewrite Forall_forall in Heq.
  apply Forall_inv in Hin. rewrite (Heq x Hin).
  simpl. destruct (Z.eq_dec x x); [lia|done].
Qed.

(** C4: without [--color] the resolved color is the outcome of
    [randint(0, 9)], unchanged, an integer in 0..9; so over any finite sample
    of generator states on which that outcome is uniform on 0..9, the color
    is uniform on 0..9 too, and every value of 0..9 is the color of some run
    of the sample. *)
Theorem random_color_uniform gu fs nt (seeds : list R) :
  let argv := CommandLine None gu in
  let drawn r := (draw 0 (N_COLOR - 1) r).1 in
  uniform_on (seqZ 0 N_COLOR) (drawn <$> seeds) →
  (∀ r, color (vars (final argv r fs nt)) = Some (drawn r) ∧
        0 ≤ drawn r ≤ 9) ∧
  omap (λ r, color (vars (final argv r fs nt))) seeds = drawn <$> seeds ∧
  uniform_on (seqZ 0 N_COLOR)
    (omap (λ r, color (vars (final argv r fs nt))) seeds) ∧
  (seeds ≠ [] → ∀ v, 0 ≤ v ≤ 9 →
     ∃ r, r ∈ seeds ∧ color (vars (final argv r fs nt)) = Some v).
Proof.
  intros argv drawn Huni.
  assert (Hcol : ∀ r, color (vars (final argv r fs nt)) = Some (drawn r))
    by (intros r; apply random_color).
  assert (Hmap : omap (λ r, color (vars (final argv r fs nt))) seeds
                 = drawn <$> seeds).
  { clear Huni. induction seeds as [|r rs IH]; [done|].
    csimpl. rewrite Hcol. csimpl. by rewrite IH. }
  split_and!; [|done|by rewrite Hmap|].
  - intros r. split; [done|]. apply (draw_range 0 (N_COLOR - 1)).
    unfold N_COLOR. lia.
  - intros Hne v Hv.
    assert (Hin : v ∈ drawn <$> seeds).
    { apply (uniform_on_hits (seqZ 0 N_COLOR)); [done|by destruct seeds|].
      apply elem_of_seqZ. unfold N_COLOR. lia. }
    apply list_elem_of_fmap in Hin as (r & -> & Hr). eauto.
Qed.

(** C5: a [--color] string that [int] does not read as an integer of 0..9,
    or that, whatever [int] makes of it, is not the decimal numeral of such
    an integer, stops the run in [parse_args] with the usage error, exit
    status 2, before anything else has happened: no file opened, no request
    sent, nothing printed. *)
Theorem bad_color_rejected s gu r fs nt :
  (∀ k, Text.int s = Some k → ¬ 0 ≤ k ≤ 9) ∨
  (∀ k, 0 ≤ k ≤ 9 → s ≠ Text.str k) →
  main (CommandLine (Some s) gu) (start r fs nt)
  = (Raised (UsageError s), start r fs nt) ∧
  exit_status (outcome (CommandLine (Some s) gu) r fs nt) = 2 ∧
  sent (final (CommandLine (Some s) gu) r fs nt) = [] ∧
  opened (final (CommandLine (Some s) gu) r fs nt) = [].
Proof.
  intros Hbad.
  assert (Hs : s ∉ choices).
  { intros (k & Hk & Hstr & Hint)%choices_int.
    destruct Hbad as [Hbad|Hbad]; [by apply (Hbad k)|by apply (Hbad k)]. }
  unfold outcome, final.
  by rewrite (rejected_run _ r fs nt s).
Qed.

(** C6: without [--url], when [secrets.json] decodes to an object with the
    key [webapp_url], no other value than the one stored under that key is
    ever bound to the base URL, and it is bound, after opening that one
    file, whenever the command line is accepted. *)
Theorem url_from_secrets argv r fs nt d v :
  given_url argv = None →
  fs !! "secrets.json" = Some (Readable (Some (JDict d))) →
  d !! "webapp_url" = Some v →
  (∀ u, url (vars (final argv r fs nt)) = Some u → u = v) ∧
  (accepted argv r fs nt →
     url (vars (final argv r fs nt)) = Some v ∧
     opened (final argv r fs nt) = ["secrets.json"]).
Proof.
  destruct argv as [gc gu]. simpl. intros -> Hfile Hkey.
  run. split; [|intros [args Hargs]; revert Hargs]; cases; done.
Qed.

(** C7: without [--url], when [secrets.json] is missing, unreadable, not
    JSON, not an object or has no key [webapp_url], the run ends in an
    exception with a non-zero exit status, having sent no request and
    printed nothing; on an accepted command line the exception is the one of
    the file access or of the key lookup, or the one [json.load] raised. *)
Theorem secrets_failure argv r fs nt :
  given_url argv = None →
  no_webapp_url (fs !! "secrets.json") →
  ∃ e, outcome argv r fs nt = Raised e ∧
       exit_status (outcome argv r fs nt) ≠ 0 ∧
       sent (final argv r fs nt) = [] ∧
       stdout (final argv r fs nt) = "" ∧
       (accepted argv r fs nt →
          e ∈ [FileNotFoundError; OSError; JSONDecodeError; TypeError;
               KeyError "webapp_url"] ∨
          fs !! "secrets.json" = Some (LoadRaises e)).
Proof.
  destruct argv as [gc gu]. simpl. intros -> Hno. unfold no_webapp_url in Hno.
  run. cases; eexists; (split; [done|]); split_and!; try done.
  all: try (intros [args Hargs]; simplify_eq/=).
  all: first [by right | left; set_solver].
Qed.

(** C8: with [--url s] the base URL is [s] itself and nothing else, no file
    is opened, and the run does not depend on the files: with other files
    the same requests are sent, with the same result and the same output. *)
Theorem url_flag_verbatim argv s r fs nt :
  given_url argv = Some s →
  (∀ u, url (vars (final argv r fs nt)) = Some u → u = VStr s ∧ format u = s) ∧
  (accepted argv r fs nt → url (vars (final argv r fs nt)) = Some (VStr s)) ∧
  opened (final argv r fs nt) = [] ∧
  ∀ fs', sent (final argv r fs' nt) = sent (final argv r fs nt) ∧
         outcome argv r fs' nt = outcome argv r fs nt ∧
         stdout (final argv r fs' nt) = stdout (final argv r fs nt) ∧
         vars (final argv r fs' nt) = vars (final argv r fs nt).
Proof.
  destruct argv as [gc gu]. simpl. intros ->.
  run. split_and!; [| |cases; done|intros fs'; split_and!; cases; done].
  - cases; done.
  - intros [args Hargs]; revert Hargs; cases; done.
Qed.




(** C10: the parser accepts a [--color] string exactly when it is one of the
    ten strings [0] to [9]; any other string, among them other spellings of
    an integer of 0..9 such as [03], [+3] and [ 3], ends the run in
    [parse_args] with the usage error and exit status 2, no file opened and
    no request sent. *)
Theorem color_choices_exact s gu r fs nt :
  let ten := ["0"; "1"; "2"; "3"; "4"; "5"; "6"; "7"; "8"; "9"] in
  let rejected t :=
    main (CommandLine (Some t) gu) (start r fs nt)
    = (Raised (UsageError t), start r fs nt) ∧
    exit_status (outcome (CommandLine (Some t) gu) r fs nt) = 2 ∧
    opened (final (CommandLine (Some t) gu) r fs nt) = [] ∧
    sent (final (CommandLine (Some t) gu) r fs nt) = [] in
  (accepted (CommandLine (Some s) gu) r fs nt ↔ s ∈ ten) ∧
  (s ∉ ten → rejected s) ∧
  Forall (λ t, Text.int t = Some 3 ∧ rejected t) ["03"; "+3"; " 3"].
Proof.
  intros ten rejected.
  assert (Hrej : ∀ t, t ∉ ten → rejected t).
  { intros t Ht. unfold rejected, outcome, final.
    by rewrite (rejected_run _ r fs nt t). }
  split_and!; [|apply Hrej|].
  - unfold accepted, parse_args. simpl. change choices with ten.
    case_bool_decide; simpl; split; try done; eauto.
    by intros [? ?].
  - repeat (apply Forall_cons; split;
              [split; [done|]; apply Hrej, (bool_decide_unpack _); by vm_compute|]).
    apply Forall_nil_2.
Qed.

(** ** Further properties of a run *)

(** X1: when [requests.get] raises, the exception ends the run with exit
    status 1; the request was handed over once, nothing is printed and
    [req] stays unbound. *)
Theorem get_failure argv r fs nt q :
  url_query (vars (final argv r fs nt)) = Some q →
  nt q = Unreachable →
  outcome argv r fs nt = Raised RequestException ∧
  exit_status (outcome argv r fs nt) = 1 ∧
  sent (final argv r fs nt) = [q] ∧
  stdout (final argv r fs nt) = "" ∧
  req (vars (final argv r fs nt)) = None.
Proof.
  destruct argv as [gc gu]. run. cases; try done; congruence.
Qed.

(** X3: a run opens no file but [secrets.json], and that one at most once,
    exactly when the command line is accepted and has no [--url]; it sends
    at most one request, the one bound to [url_query], exactly when the
    base URL was resolved. *)
Theorem one_file_one_request argv r fs nt :
  (opened (final argv r fs nt) = [] ∨
   opened (final argv r fs nt) = ["secrets.json"]) ∧
  (opened (final argv r fs nt) = ["secrets.json"]
   ↔ given_url argv = None ∧ accepted argv r fs nt) ∧
  (sent (final argv r fs nt) = [] ∨
   ∃ q, sent (final argv r fs nt) = [q] ∧
        url_query (vars (final argv r fs nt)) = Some q) ∧
  (sent (final argv r fs nt) ≠ []
   ↔ ∃ u, url (vars (final argv r fs nt)) = Some u).
Proof.
  destruct argv as [gc gu]. run. split_and!.
  - cases; auto.
  - cases; split; try done; try (intros [? [? ?]]; simplify_eq/=); eauto.
  - cases; eauto.
  - cases; split; try done; try (intros [? ?]; simplify_eq/=); eauto.
Qed.

(** X5: the generator is used in script order and no more than needed: a
    rejected command line leaves it untouched; the color draw, made only
    without [--color], comes first and is the only draw when the base URL
    cannot be resolved; the nonce draw follows once the URL is resolved. *)
Theorem generator_use argv r fs nt :
  let r1 := match given_color argv with
            | None => (draw 0 (N_COLOR - 1) r).2
            | Some _ => r
            end in
  (¬ accepted argv r fs nt → random (final argv r fs nt) = r) ∧
  (accepted argv r fs nt → url (vars (final argv r fs nt)) = None →
     random (final argv r fs nt) = r1) ∧
  (∀ u, url (vars (final argv r fs nt)) = Some u →
     random (final argv r fs nt) = (draw 1000 9999 r1).2).
Proof.
  destruct argv as [gc gu]. run. split_and!.
  - cases; try done; exfalso; eauto.
  - intros [args Hargs]. revert Hargs. cases; done.
  - cases; done.
Qed.

(** X6: with the same command line and files, the request URL determines
    the color and the nonce: two runs that send the same URL had the same
    color and the same nonce, so another nonce gives another URL. *)
Theorem request_determines_color_nonce argv r r' fs nt nt' q :
  sent (final argv r fs nt) = [q] →
  sent (final argv r' fs nt') = [q] →
  color (vars (final argv r fs nt)) = color (vars (final argv r' fs nt')) ∧
  rng (vars (final argv r fs nt)) = rng (vars (final argv r' fs nt')).
Proof.
  destruct argv as [gc gu]. run. cases; try done.
  all: match goal with
       | Hq : query_string _ _ _ = query_string _ _ _ |- _ =>
           apply query_string_inj in Hq as [? ?]
       end; by simplify_eq.
Qed.

(** X7: the request URL is the base URL followed by 28 characters: the
    color is one digit of 0..9 and the nonce has four digits. *)
Theorem request_shape argv r fs nt q :
  url_query (vars (final argv r fs nt)) = Some q →
  ∃ u c n,
    url (vars (final argv r fs nt)) = Some u ∧
    color (vars (final argv r fs nt)) = Some c ∧
    rng (vars (final argv r fs nt)) = Some n ∧
    q = query_string u c n ∧
    0 ≤ c ≤ 9 ∧ 1000 ≤ n ≤ 9999 ∧
    String.length q = (String.length (format u) + 28)%nat.
Proof.
  intros Hq.
  assert (Hex : ∃ u c n,
    url (vars (final argv r fs nt)) = Some u ∧
    color (vars (final argv r fs nt)) = Some c ∧
    rng (vars (final argv r fs nt)) = Some n ∧
    q = query_string u c n ∧ 0 ≤ c ≤ 9 ∧ 1000 ≤ n ≤ 9999).
  { revert Hq. destruct argv as [gc gu]. run.
    cases; try done; eexists _, _, _; split_and!; try done.
    all: repeat match goal with
         | Hd : draw ?a ?b ?g = (?z, _) |- _ =>
             pose proof (draw_range a b g ltac:(unfold N_COLOR; lia)) as ?;
             rewrite Hd in *; clear Hd; simpl in *
         | Hc : bool_decide (?s ∈ choices) = true, Hi : Text.int ?s = Some _ |- _ =>
             apply bool_decide_eq_true_1, choices_int in Hc as (? & ? & _ & ?)
         end; unfold N_COLOR in *; simplify_eq; lia. }
  destruct Hex as (u & c & n & Hu & Hc & Hn & -> & Hcr & Hnr).
  exists u, c, n. split_and!; try done; try lia.
  unfold query_string. rewrite !length_append.
  rewrite (length_str_one_digit c), (length_str_four_digits n) by done.
  simpl. lia.
Qed.


(** X9: the way the script builds its choices and reads them back is sound
    for any number of colors: each string of [str(num) for num in range(N)]
    is read by [int] as the number it was made from, and as no other. *)
Theorem choices_round_trip (N : Z) (s : string) :
  s ∈ (Text.str <$> seqZ 0 N) →
  ∃ k, 0 ≤ k < N ∧ s = Text.str k ∧ Text.int s = Some k ∧
       ∀ k', s = Text.str k' → k' = k.
Proof.
  intros (k & -> & Hk)%list_elem_of_fmap. apply elem_of_seqZ in Hk.
  exists k. split_and!; [lia..|done|apply TextFacts.int_str|].
  intros k' Hk'. symmetry. by apply str_inj.
Qed.

End ScriptFacts.

(** ** Concrete runs *)

Lemma request_target_witness :
  let w := final example_argv [234] ∅ (answer_all 200 "") in
  url (vars w) = Some (VStr "https://example.com/x") ∧
  color (vars w) = Some 3 ∧
  rng (vars w) = Some 1234 ∧
  sent w = ["https://example.com/x?fc=3.1234.02:01:20:22:ADMIN"].
Proof.
  split_and!; [reflexivity..|].
  apply (request_target example_argv [234] ∅ (answer_all 200 "")
           (VStr "https://example.com/x") 3 1234); reflexivity.
Defined.

Lemma explicit_color_witness :
  accepted (CommandLine (Some "7") None) [234] ∅ (answer_all 200 "") ∧
  ∃ k, 0 ≤ k ≤ 9 ∧ "7" = Text.str k ∧ Text.int "7" = Some k ∧
       color (vars (final (CommandLine (Some "7") None) [234] ∅
                      (answer_all 200 ""))) = Some k.
Proof.
  assert (Hacc : accepted (CommandLine (Some "7") None) [234] ∅
                   (answer_all 200 "")).
  { eexists. reflexivity. }
  split; [exact Hacc|].
  exact (explicit_color "7" None [234] ∅ (answer_all 200 "") Hacc).
Defined.

Lemma random_color_uniform_witness :
  let seeds : list (list Z) := (λ x, [x]) <$> seqZ 0 20 in
  uniform_on (seqZ 0 N_COLOR) ((λ r, (draw 0 (N_COLOR - 1) r).1) <$> seeds) ∧
  uniform_on (seqZ 0 N_COLOR)
    (omap (λ r, color (vars (final (CommandLine None None) r secrets_foo
                               (answer_all 200 "")))) seeds).
Proof.
  intros seeds.
  assert (Huni : uniform_on (seqZ 0 N_COLOR)
                   ((λ r, (draw 0 (N_COLOR - 1) r).1) <$> seeds)).
  { unfold uniform_on. apply (bool_decide_unpack _). vm_compute. reflexivity. }
  split; [exact Huni|].
  apply (random_color_uniform None secrets_foo (answer_all 200 "") seeds Huni).
Defined.

Lemma bad_color_rejected_witness :
  (∀ k, Text.int "10" = Some k → ¬ 0 ≤ k ≤ 9) ∧
  (∀ k, Text.int "-1" = Some k → ¬ 0 ≤ k ≤ 9) ∧
  (∀ k, 0 ≤ k ≤ 9 → fs_three ≠ Text.str k) ∧
  exit_status (outcome (CommandLine (Some "10") None) [5; 234] secrets_foo
                 (answer_all 200 "")) = 2 ∧
  sent (final (CommandLine (Some "10") None) [5; 234] secrets_foo
          (answer_all 200 "")) = [] ∧
  exit_status (outcome (CommandLine (Some "-1") None) [5; 234] secrets_foo
                 (answer_all 200 "")) = 2 ∧
  sent (final (CommandLine (Some "-1") None) [5; 234] secrets_foo
          (answer_all 200 "")) = [] ∧
  exit_status (outcome (CommandLine (Some fs_three) None) [5; 234] secrets_foo
                 (answer_all 200 "")) = 2 ∧
  sent (final (CommandLine (Some fs_three) None) [5; 234] secrets_foo
          (answer_all 200 "")) = [].
Proof.
  assert (H10 : ∀ k, Text.int "10" = Some k → ¬ 0 ≤ k ≤ 9).
  { intros k Hk. vm_compute in Hk. injection Hk as <-. lia. }
  assert (Hm1 : ∀ k, Text.int "-1" = Some k → ¬ 0 ≤ k ≤ 9).
  { intros k Hk. vm_compute in Hk. injection Hk as <-. lia. }
  assert (Hfs : ∀ k, 0 ≤ k ≤ 9 → fs_three ≠ Text.str k).
  { intros k Hk Heq.
    assert (Hin : fs_three ∈ choices) by (apply elem_of_choices; eauto).
    revert Hin. apply (bool_decide_unpack _). vm_compute. reflexivity. }
  pose proof (bad_color_rejected "10" None [5; 234] secrets_foo
                (answer_all 200 "") (or_introl H10)) as (_ & Hx & Hs & _).
  pose proof (bad_color_rejected "-1" None [5; 234] secrets_foo
                (answer_all 200 "") (or_introl Hm1)) as (_ & Hx' & Hs' & _).
  pose proof (bad_color_rejected fs_three None [5; 234] secrets_foo
                (answer_all 200 "") (or_intror Hfs)) as (_ & Hx'' & Hs'' & _).
  split_and!; assumption.
Defined.

(** The nonce is drawn with and without [--color], with and without
    [--url]. *)
Lemma nonce_fresh_witness :
  rng (vars (final (CommandLine (Some "3") (Some "https://example.com/x"))
               [234] ∅ (answer_all 200 ""))) = Some 1234 ∧
  rng (vars (final (CommandLine None (Some "https://example.com/x"))
               [7; 234] ∅ (answer_all 200 ""))) = Some 1234 ∧
  rng (vars (final (CommandLine (Some "3") None)
               [234] secrets_foo (answer_all 200 ""))) = Some 1234 ∧
  rng (vars (final (CommandLine None None)
               [7; 234] secrets_foo (answer_all 200 ""))) = Some 1234.
Proof.
  assert (Hfoo : url_available (CommandLine None None) secrets_foo).
  { eexists _, _. split; [by vm_compute|by vm_compute]. }
  split_and!.
  - refine (proj1 (proj1 (proj2 (nonce_fresh
      (CommandLine (Some "3") (Some "https://example.com/x"))
      [234] ∅ (answer_all 200 ""))) _ I)).
    eexists. reflexivity.
  - refine (proj1 (proj1 (proj2 (nonce_fresh
      (CommandLine None (Some "https://example.com/x"))
      [7; 234] ∅ (answer_all 200 ""))) _ I)).
    eexists. reflexivity.
  - refine (proj1 (proj1 (proj2 (nonce_fresh
      (CommandLine (Some "3") None)
      [234] secrets_foo (answer_all 200 ""))) _ Hfoo)).
    eexists. reflexivity.
  - refine (proj1 (proj1 (proj2 (nonce_fresh
      (CommandLine None None)
      [7; 234] secrets_foo (answer_all 200 ""))) _ Hfoo)).
    eexists. reflexivity.
Defined.

Lemma url_from_secrets_witness :
  given_url (CommandLine None None) = None ∧
  secrets_foo !! "secrets.json"
  = Some (Readable (Some (JDict {[ "webapp_url" := VStr "https://foo" ]}))) ∧
  ({[ "webapp_url" := VStr "https://foo" ]} : gmap string value) !! "webapp_url"
  = Some (VStr "https://foo") ∧
  url (vars (final (CommandLine None None) [5; 234] secrets_foo
               (answer_all 200 ""))) = Some (VStr "https://foo").
Proof.
  assert (Hf : secrets_foo !! "secrets.json"
               = Some (Readable (Some (JDict {[ "webapp_url" := VStr "https://foo" ]}))))
    by (vm_compute; reflexivity).
  assert (Hk : ({[ "webapp_url" := VStr "https://foo" ]} : gmap string value)
               !! "webapp_url" = Some (VStr "https://foo"))
    by (vm_compute; reflexivity).
  split_and!; [reflexivity|exact Hf|exact Hk|].
  apply (url_from_secrets (CommandLine None None) [5; 234] secrets_foo
           (answer_all 200 "") _ _ eq_refl Hf Hk).
  eexists. reflexivity.
Defined.

Lemma secrets_failure_witness :
  given_url (CommandLine (Some "3") None) = None ∧
  no_webapp_url ((∅ : gmap string file) !! "secrets.json") ∧
  ∃ e, outcome (CommandLine (Some "3") None) [234] ∅ (answer_all 200 "")
       = Raised e ∧
       exit_status (outcome (CommandLine (Some "3") None) [234] ∅
                      (answer_all 200 "")) ≠ 0 ∧
       sent (final (CommandLine (Some "3") None) [234] ∅ (answer_all 200 ""))
       = [].
Proof.
  assert (Hno : no_webapp_url ((∅ : gmap string file) !! "secrets.json"))
    by exact I.
  split_and!; [reflexivity|exact Hno|].
  destruct (secrets_failure (CommandLine (Some "3") None) [234] ∅
              (answer_all 200 "") eq_refl Hno) as (e & He & Hx & Hs & _).
  exists e. split_and!; assumption.
Defined.

Lemma url_flag_verbatim_witness :
  given_url example_argv = Some "https://example.com/x" ∧
  opened (final example_argv [234] secrets_foo (answer_all 200 "")) = [] ∧
  sent (final example_argv [234] ∅ (answer_all 200 ""))
  = sent (final example_argv [234] secrets_foo (answer_all 200 "")).
Proof.
  pose proof (url_flag_verbatim example_argv "https://example.com/x" [234]
                secrets_foo (answer_all 200 "") eq_refl) as (_ & _ & Ho & Hfs).
  split_and!; [reflexivity|exact Ho|apply (Hfs ∅)].
Defined.



(** ** Concrete runs for the further properties *)

Lemma get_failure_witness :
  let q := "https://example.com/x?fc=3.1234.02:01:20:22:ADMIN" in
  url_query (vars (final example_argv [234] ∅ no_network)) = Some q ∧
  no_network q = Unreachable ∧
  outcome example_argv [234] ∅ no_network = Raised RequestException ∧
  sent (final example_argv [234] ∅ no_network) = [q] ∧
  stdout (final example_argv [234] ∅ no_network) = "".
Proof.
  intros q.
  pose proof (get_failure example_argv [234] ∅ no_network q eq_refl eq_refl)
    as (Ho & _ & Hs & Hp & _).
  split_and!; [reflexivity|reflexivity|exact Ho|exact Hs|exact Hp].
Defined.

Lemma request_determines_color_nonce_witness :
  let q := "https://foo?fc=7.1234.02:01:20:22:ADMIN" in
  sent (final (CommandLine None None) [7; 234] secrets_foo (answer_all 200 ""))
  = [q] ∧
  sent (final (CommandLine None None) [17; 9234] secrets_foo no_network)
  = [q] ∧
  rng (vars (final (CommandLine None None) [7; 234] secrets_foo
               (answer_all 200 "")))
  = rng (vars (final (CommandLine None None) [17; 9234] secrets_foo
                 no_network)).
Proof.
  intros q. split_and!; [reflexivity..|].
  exact (proj2 (request_determines_color_nonce (CommandLine None None)
                  [7; 234] [17; 9234] secrets_foo (answer_all 200 "")
                  no_network q eq_refl eq_refl)).
Defined.

Lemma request_shape_witness :
  let q := "https://example.com/x?fc=3.1234.02:01:20:22:ADMIN" in
  url_query (vars (final example_argv [234] ∅ (answer_all 200 ""))) = Some q ∧
  ∃ u c n, q = query_string u c n ∧ 0 ≤ c ≤ 9 ∧ 1000 ≤ n ≤ 9999 ∧
           String.length q = (String.length (format u) + 28)%nat.
Proof.
  intros q.
  assert (Hrun : url_query (vars (final example_argv [234] ∅
                                     (answer_all 200 ""))) = Some q)
    by reflexivity.
  split; [exact Hrun|].
  destruct (request_shape example_argv [234] ∅ (answer_all 200 "") q Hrun)
    as (u & c & n & _ & _ & _ & Hq & Hc & Hn & Hlen).
  exists u, c, n. exact (conj Hq (conj Hc (conj Hn Hlen))).
Defined.

Lemma choices_round_trip_witness :
  "7" ∈ (Text.str <$> seqZ 0 N_COLOR) ∧
  ∃ k, 0 ≤ k < N_COLOR ∧ "7" = Text.str k ∧ Text.int "7" = Some k.
Proof.
  assert (Hin : "7" ∈ (Text.str <$> seqZ 0 N_COLOR)).
  { apply (bool_decide_unpack _). vm_compute. reflexivity. }
  split; [exact Hin|].
  destruct (choices_round_trip N_COLOR "7" Hin) as (k & Hk & Hs & Hi & _).
  exists k. exact (conj Hk (conj Hs Hi)).
Defined.
